(** * SIWEJwtBearerAuth: the Sign-In-With-Ethereum session flow

    Shallow embedding of
    [packages/profile-sync-controller/src/sdk/authentication-jwt-bearer/flow-siwe.ts].

    The class talks to collaborators it does not own: the injected storage,
    the three identity-service endpoints, the [siwe] package, the wallet's
    signing function and the system clock.  Every such invocation is a node
    of an interaction tree ([Prog]); a method of the class is a function from
    the object's private fields to such a tree ([M]).  Running a tree against
    a handler (an arbitrary implementation of the collaborators over an
    arbitrary world) yields the method's outcome, the final object, the final
    world and the log of the invocations made, in order.

    Conventions.
    - TypeScript [number]s that carry millisecond timestamps, and the chain
      id, are integers ([Z]); [Date.now()] returns integers and the
      subtraction of two of them is exact in the range JavaScript dates live
      in.
    - [await] is sequencing: a method call runs to completion before the next
      one starts (no other task touches the object in between).
    - What [./constants], [./services], [./types] and the JavaScript runtime
      provide is a parameter of the development. *)

From Stdlib Require Import ZArith List String Ascii Bool Lia DecimalString.
Import ListNotations.

Local Open Scope string_scope.
Local Open Scope Z_scope.

Section Flow.

(** ** What the imports provide *)

(** [Env] and [AuthType] are the two selectors of [AuthConfig];
    [UserProfile] is opaque to this file. *)
Context {Env AuthType UserProfile : Type}.

(** The token fields this file never reads. *)
Context {TokenExtra : Type}.

(** The type of a wallet's [signMessage] function value. *)
Context {SignFn : Type}.

(** Values thrown by collaborators that are not a [ValidationError]. *)
Context {Exn : Type}.

(** [./constants] *)
Variable SESSION_LIFETIME_MS : Z.

(** [./services]: the login URI, a function of the environment only. *)
Variable SIWE_LOGIN_URL : Env -> string.

(** [Date.prototype.toISOString], applied to a time in milliseconds. *)
Variable toISOString : Z -> string.

(** ** Data *)

Record AuthConfig : Type := {
  env : Env;
  type : AuthType
}.

Record AccessToken : Type := {
  accessToken : string;
  obtainedAt : Z;
  tokenExtra : TokenExtra
}.

Record LoginResponse : Type := {
  profile : UserProfile;
  token : AccessToken
}.

(** [JwtBearerAuth_SIWE_Signer] *)
Record JwtBearerAuth_SIWE_Signer : Type := {
  address : string;
  chainId : Z;
  signMessageFn : SignFn;
  domain : string
}.

(** The object literal handed to [new SiweMessage(...)]. *)
Record SiweFields : Type := {
  siwe_domain : string;
  siwe_address : string;
  siwe_uri : string;
  siwe_version : string;
  siwe_chainId : Z;
  siwe_nonce : string;
  siwe_issuedAt : string
}.

(** The part of [getNonce]'s answer that is read: [nonceRes.nonce]. *)
Record NonceResponse : Type := {
  nonce : string
}.

(** The part of [authenticate]'s answer that is read:
    [authResponse.token] and [authResponse.profile]. *)
Record AuthenticateResponse : Type := {
  auth_token : string;
  auth_profile : UserProfile
}.

(** The private fields.  [#options.storage] is a collaborator: its two
    methods are invocations below. *)
Record SIWEJwtBearerAuth : Type := {
  config : AuthConfig;
  signer : option JwtBearerAuth_SIWE_Signer
}.

Inductive Thrown : Type :=
| ValidationError (message : string)
| Failure (e : Exn).

(** ** Invocations of collaborators *)

(** [Date_now] is a reading of the system clock, by [Date.now()] or by
    [new Date()]; [SiweMessage_prepareMessage] is
    [new SiweMessage(fields).prepareMessage()]; [signer_signMessage] is the
    signer's own [signMessage]. *)
Inductive Call : Type :=
| getLoginResponse
| setLoginResponse (val : LoginResponse)
| Date_now
| getNonce (id : string) (e : Env)
| SiweMessage_prepareMessage (fields : SiweFields)
| signer_signMessage (s : JwtBearerAuth_SIWE_Signer) (message : string)
| authenticate (rawMessage signature : string) (t : AuthType) (e : Env)
| authorizeOIDC (jwtToken : string) (e : Env).

Definition Resp (c : Call) : Type :=
  match c with
  | getLoginResponse => option LoginResponse
  | setLoginResponse _ => unit
  | Date_now => Z
  | getNonce _ _ => NonceResponse
  | SiweMessage_prepareMessage _ => string
  | signer_signMessage _ _ => string
  | authenticate _ _ _ _ => AuthenticateResponse
  | authorizeOIDC _ _ => AccessToken
  end.

(** A settled invocation: it returned or it threw. *)
Definition Settled (c : Call) : Type := (Thrown + Resp c)%type.

Inductive Prog (A : Type) : Type :=
| Ret (a : A)
| Vis (c : Call) (k : Settled c -> Prog A).

Arguments Ret {A} a.
Arguments Vis {A} c k.

Fixpoint pbind {A B : Type} (p : Prog A) (f : A -> Prog B) : Prog B :=
  match p with
  | Ret a => f a
  | Vis c k => Vis c (fun r => pbind (k r) f)
  end.

(** ** Methods: state over the object, exceptions, invocations *)

Definition M (A : Type) : Type :=
  SIWEJwtBearerAuth -> Prog ((Thrown + A) * SIWEJwtBearerAuth).

Definition ret {A : Type} (a : A) : M A :=
  fun this => Ret (inr a, this).

Definition throw {A : Type} (e : Thrown) : M A :=
  fun this => Ret (inl e, this).

Definition bind {A B : Type} (m : M A) (f : A -> M B) : M B :=
  fun this =>
    pbind (m this)
          (fun x => match x with
                    | (inl e, this') => Ret (inl e, this')
                    | (inr a, this') => f a this'
                    end).

(** [await collaborator(...)]: a rejection is rethrown as it is. *)
Definition call (c : Call) : M (Resp c) :=
  fun this => Vis c (fun r => Ret (r, this)).

Definition get_signer : M (option JwtBearerAuth_SIWE_Signer) :=
  fun this => Ret (inr (signer this), this).

Definition get_config : M AuthConfig :=
  fun this => Ret (inr (config this), this).

Definition set_signer (s : JwtBearerAuth_SIWE_Signer) : M unit :=
  fun this => Ret (inr tt, {| config := config this; signer := Some s |}).

Notation "x <- m ;; k" := (bind m (fun x => k))
  (at level 100, m at next level, right associativity).
Notation "m ;;; k" := (bind m (fun _ => k))
  (at level 100, right associativity).

(** ** The class *)

Definition not_prepared : string :=
  "you must call 'prepare()' before logging in".

(** [#assertSigner]: returns the signer the assertion narrows to. *)
Definition assertSigner (s : option JwtBearerAuth_SIWE_Signer)
  : M JwtBearerAuth_SIWE_Signer :=
  match s with
  | None => throw (ValidationError not_prepared)
  | Some sg => ret sg
  end.

(** [#getAuthSession] *)
Definition getAuthSession : M (option LoginResponse) :=
  auth <- call getLoginResponse ;;
  match auth with
  | None => ret None
  | Some a =>
      currentTime <- call Date_now ;;
      let sessionAge := currentTime - obtainedAt (token a) in
      if sessionAge <? SESSION_LIFETIME_MS then ret (Some a) else ret None
  end.

Definition getIdentifier : M string :=
  s <- get_signer ;;
  sg <- assertSigner s ;;
  ret (address sg).

Definition signMessage (message : string) : M string :=
  s <- get_signer ;;
  sg <- assertSigner s ;;
  call (signer_signMessage sg message).

Definition prepare (s : JwtBearerAuth_SIWE_Signer) : M unit :=
  set_signer s.

(** [#createSiWELoginRawMessage]: the properties of the literal are
    evaluated in order, then the message is built and rendered. *)
Definition createSiWELoginRawMessage (n : string) : M string :=
  s <- get_signer ;;
  sg <- assertSigner s ;;
  cfg <- get_config ;;
  let uri := SIWE_LOGIN_URL (env cfg) in
  date <- call Date_now ;;
  call (SiweMessage_prepareMessage
          {| siwe_domain := domain sg;
             siwe_address := address sg;
             siwe_uri := uri;
             siwe_version := "1";
             siwe_chainId := chainId sg;
             siwe_nonce := n;
             siwe_issuedAt := toISOString date |}).

(** [#login] *)
Definition login : M LoginResponse :=
  s <- get_signer ;;
  assertSigner s ;;;
  id <- getIdentifier ;;
  cfg <- get_config ;;
  nonceRes <- call (getNonce id (env cfg)) ;;
  rawMessage <- createSiWELoginRawMessage (nonce nonceRes) ;;
  signature <- signMessage rawMessage ;;
  cfg1 <- get_config ;;
  authResponse <-
    call (authenticate rawMessage signature (type cfg1) (env cfg1)) ;;
  cfg2 <- get_config ;;
  tokenResponse <- call (authorizeOIDC (auth_token authResponse) (env cfg2)) ;;
  let result := {| profile := auth_profile authResponse;
                   token := tokenResponse |} in
  call (setLoginResponse result) ;;;
  ret result.

Definition getAccessToken : M string :=
  session <- getAuthSession ;;
  match session with
  | Some se => ret (accessToken (token se))
  | None =>
      loginResponse <- login ;;
      ret (accessToken (token loginResponse))
  end.

Definition getUserProfile : M UserProfile :=
  session <- getAuthSession ;;
  match session with
  | Some se => ret (profile se)
  | None =>
      loginResponse <- login ;;
      ret (profile loginResponse)
  end.

(** ** Running a method against its collaborators *)

Record Entry : Type := {
  entry_call : Call;
  entry_resp : Settled entry_call
}.

(** An implementation of the collaborators over worlds [W]: how an
    invocation settles in a world, and the world it leaves. *)
Definition Handler (W : Type) : Type :=
  forall c : Call, W -> Settled c * W.

(** The value of a tree, the final world, and the invocations in order. *)
Fixpoint run {W A : Type} (h : Handler W) (p : Prog A) (w : W)
  : A * W * list Entry :=
  match p with
  | Ret a => (a, w, [])
  | Vis c k =>
      let (r, w') := h c w in
      let '(a, w'', tr) := run h (k r) w' in
      (a, w'', {| entry_call := c; entry_resp := r |} :: tr)
  end.

Record Outcome (W A : Type) : Type := {
  result : Thrown + A;
  object : SIWEJwtBearerAuth;
  world : W;
  trace : list Entry
}.

Arguments result {W A} o.
Arguments object {W A} o.
Arguments world {W A} o.
Arguments trace {W A} o.

Definition exec {W A : Type} (h : Handler W) (m : M A)
           (this : SIWEJwtBearerAuth) (w : W) : Outcome W A :=
  let '(r, this', w', tr) := run h (m this) w in
  {| result := r; object := this'; world := w'; trace := tr |}.

(** ** Reading a log *)

Inductive Stage : Type :=
| Storage_read | Storage_write | Clock | Nonce
| Message | Signature | Authentication | Authorization.

Definition stage (c : Call) : Stage :=
  match c with
  | getLoginResponse => Storage_read
  | setLoginResponse _ => Storage_write
  | Date_now => Clock
  | getNonce _ _ => Nonce
  | SiweMessage_prepareMessage _ => Message
  | signer_signMessage _ _ => Signature
  | authenticate _ _ _ _ => Authentication
  | authorizeOIDC _ _ => Authorization
  end.

Definition succeeded (e : Entry) : bool :=
  match entry_resp e with
  | inl _ => false
  | inr _ => true
  end.

(** Which collaborator was invoked and whether it returned, in order. *)
Definition outline (tr : list Entry) : list (Stage * bool) :=
  map (fun e => (stage (entry_call e), succeeded e)) tr.

(** What the invocations threw, in order. *)
Definition thrown (tr : list Entry) : list (Stage * Thrown) :=
  flat_map (fun e => match entry_resp e with
                     | inl x => [(stage (entry_call e), x)]
                     | inr _ => []
                     end) tr.

(** The values handed to [storage.setLoginResponse]. *)
Definition written (tr : list Entry) : list LoginResponse :=
  flat_map (fun e => match entry_call e with
                     | setLoginResponse v => [v]
                     | _ => []
                     end) tr.

(** The literals handed to [new SiweMessage]. *)
Definition constructed (tr : list Entry) : list SiweFields :=
  flat_map (fun e => match entry_call e with
                     | SiweMessage_prepareMessage f => [f]
                     | _ => []
                     end) tr.

(** The messages handed to the wallet's [signMessage]. *)
Definition signed (tr : list Entry) : list string :=
  flat_map (fun e => match entry_call e with
                     | signer_signMessage _ m => [m]
                     | _ => []
                     end) tr.

(** The messages handed to [authenticate]. *)
Definition submitted (tr : list Entry) : list string :=
  flat_map (fun e => match entry_call e with
                     | authenticate m _ _ _ => [m]
                     | _ => []
                     end) tr.

(** What the nonce service was asked: an identifier and an environment. *)
Definition requested (tr : list Entry) : list (string * Env) :=
  flat_map (fun e => match entry_call e with
                     | getNonce id e' => [(id, e')]
                     | _ => []
                     end) tr.

(** The nonces the nonce service returned. *)
Definition nonces (tr : list Entry) : list string :=
  flat_map (fun e => match e with
                     | Build_Entry (getNonce _ _) (inr r) => [nonce r]
                     | _ => []
                     end) tr.

(** The times the clock returned. *)
Definition clock_reads (tr : list Entry) : list Z :=
  flat_map (fun e => match e with
                     | Build_Entry Date_now (inr t) => [t]
                     | _ => []
                     end) tr.

(** The texts [prepareMessage] returned. *)
Definition rendered (tr : list Entry) : list string :=
  flat_map (fun e => match e with
                     | Build_Entry (SiweMessage_prepareMessage _) (inr m) => [m]
                     | _ => []
                     end) tr.

(** What [authenticate] returned. *)
Definition authenticated (tr : list Entry) : list AuthenticateResponse :=
  flat_map (fun e => match e with
                     | Build_Entry (authenticate _ _ _ _) (inr a) => [a]
                     | _ => []
                     end) tr.

(** What [authorizeOIDC] returned. *)
Definition authorized (tr : list Entry) : list AccessToken :=
  flat_map (fun e => match e with
                     | Build_Entry (authorizeOIDC _ _) (inr t) => [t]
                     | _ => []
                     end) tr.
(** The only invocations the cache gate is expected to make. *)
Definition is_read (e : Entry) : bool :=
  match stage (entry_call e) with
  | Storage_read | Clock => true
  | _ => false
  end.

(** How a call is expected to end when the signer is missing: the
    assertion's error, nothing invoked, nothing changed. *)
Definition refused {W A : Type} (this : SIWEJwtBearerAuth) (w : W)
  : Outcome W A :=
  {| result := inl (ValidationError not_prepared);
     object := this;
     world := w;
     trace := [] |}.

(** The outline of a login attempt that reaches the write. *)
Definition all_stages_then_write (b : bool) : list (Stage * bool) :=
  [ (Nonce, true); (Clock, true); (Message, true); (Signature, true);
    (Authentication, true); (Authorization, true); (Storage_write, b) ].

(** The literal a login attempt is expected to hand to [new SiweMessage]
    for signer [sg], configuration [cfg], nonce [n] and clock reading [t]. *)
Definition login_message (sg : JwtBearerAuth_SIWE_Signer) (cfg : AuthConfig)
           (n : string) (t : Z) : SiweFields :=
  {| siwe_domain := domain sg;
     siwe_address := address sg;
     siwe_uri := SIWE_LOGIN_URL (env cfg);
     siwe_version := "1";
     siwe_chainId := chainId sg;
     siwe_nonce := n;
     siwe_issuedAt := toISOString t |}.


(** ** The rest of the class, and more of the log *)

(** [constructor]: the configuration is kept and no signer is bound; the
    storage of [options] is the collaborator the handler implements. *)
Definition constructor (cfg : AuthConfig) : SIWEJwtBearerAuth :=
  {| config := cfg; signer := None |}.

(** What the storage read returned. *)
Definition loaded (tr : list Entry) : list (option LoginResponse) :=
  flat_map (fun e => match e with
                     | Build_Entry getLoginResponse (inr r) => [r]
                     | _ => []
                     end) tr.

(** The wallets asked to sign, each with the text it was given. *)
Definition signings (tr : list Entry)
  : list (JwtBearerAuth_SIWE_Signer * string) :=
  flat_map (fun e => match entry_call e with
                     | signer_signMessage s m => [(s, m)]
                     | _ => []
                     end) tr.

(** The signatures the wallets returned. *)
Definition signatures (tr : list Entry) : list string :=
  flat_map (fun e => match e with
                     | Build_Entry (signer_signMessage _ _) (inr s) => [s]
                     | _ => []
                     end) tr.

(** The arguments of the calls to [authenticate]. *)
Definition authentications (tr : list Entry)
  : list (string * string * AuthType * Env) :=
  flat_map (fun e => match entry_call e with
                     | authenticate m s t e' => [(m, s, t, e')]
                     | _ => []
                     end) tr.

(** The arguments of the calls to [authorizeOIDC]. *)
Definition authorizations (tr : list Entry) : list (string * Env) :=
  flat_map (fun e => match entry_call e with
                     | authorizeOIDC t e' => [(t, e')]
                     | _ => []
                     end) tr.

(** The order in which [#login] invokes its collaborators. *)
Definition login_stages : list Stage :=
  [ Nonce; Clock; Message; Signature; Authentication; Authorization;
    Storage_write ].

(** A storage that returns, on the next read, the value a successful write
    handed it, and whose read leaves the world as it is. *)
Definition reads_its_writes {W : Type} (h : Handler W) : Prop :=
  forall (v : LoginResponse) (w w' : W),
    h (setLoginResponse v) w = (inr tt, w') ->
    h getLoginResponse w' = (inr (Some v), w').

(** What an accessor returns when it had to log in: the field of the login's
    result, or the login's error as it is. *)
Definition field_of {A : Type} (f : LoginResponse -> A)
           (r : Thrown + LoginResponse) : Thrown + A :=
  match r with
  | inl e => inl e
  | inr l => inr (f l)
  end.


End Flow.

Arguments Ret {Env AuthType UserProfile TokenExtra SignFn Exn A} a.
Arguments Vis {Env AuthType UserProfile TokenExtra SignFn Exn A} c k.
Arguments result {Env AuthType UserProfile TokenExtra SignFn Exn W A} o.
Arguments object {Env AuthType UserProfile TokenExtra SignFn Exn W A} o.
Arguments world {Env AuthType UserProfile TokenExtra SignFn Exn W A} o.
Arguments trace {Env AuthType UserProfile TokenExtra SignFn Exn W A} o.
(** * A world to run the class in

    One implementation of every parameter and collaborator: a storage cell, a
    clock that shows the world's time, a nonce service that issues the nonces
    of a queue, wallets given by a function, and a message renderer in the
    layout of EIP-4361. *)

Module Sim.

Inductive Env : Type := dev | uat | prd.
Inductive AuthType : Type := SRP | SiWE.
Definition UserProfile : Type := string.
Definition TokenExtra : Type := unit.
Definition SignFn : Type := string -> option string.
Definition Exn : Type := string.

(** Forty-five minutes. *)
Definition SESSION_LIFETIME_MS : Z := 45 * 60 * 1000.

Definition env_name (e : Env) : string :=
  match e with
  | dev => "dev"
  | uat => "uat"
  | prd => "prd"
  end.

Definition SIWE_LOGIN_URL (e : Env) : string :=
  "https://auth." ++ env_name e ++ ".example/api/v2/siwe/login".

(** ** The clock's text *)

Definition digit (d : Z) : ascii := ascii_of_nat (48 + Z.to_nat d).

(** The [k] lowest decimal digits of [n]. *)
Fixpoint digits (k : nat) (n : Z) : string :=
  match k with
  | O => ""
  | S k' => digits k' (n / 10) ++ String (digit (n mod 10)) ""
  end.

(** Year, month and day of the [z]-th day after 1970-01-01. *)
Definition civil_from_days (z : Z) : Z * Z * Z :=
  let z := z + 719468 in
  let era := z / 146097 in
  let doe := z - era * 146097 in
  let yoe := (doe - doe / 1460 + doe / 36524 - doe / 146096) / 365 in
  let doy := doe - (365 * yoe + yoe / 4 - yoe / 100) in
  let mp := (5 * doy + 2) / 153 in
  let d := doy - (153 * mp + 2) / 5 + 1 in
  let m := if mp <? 10 then mp + 3 else mp - 9 in
  let y := yoe + era * 400 in
  (if m <=? 2 then y + 1 else y, m, d).

Definition year_text (y : Z) : string :=
  if (0 <=? y) && (y <=? 9999) then digits 4 y
  else if 0 <=? y then "+" ++ digits 6 y
       else "-" ++ digits 6 (- y).

Definition toISOString (ms : Z) : string :=
  let r := ms mod 86400000 in
  let '(y, m, d) := civil_from_days (ms / 86400000) in
  year_text y ++ "-" ++ digits 2 m ++ "-" ++ digits 2 d ++ "T"
    ++ digits 2 (r / 3600000) ++ ":" ++ digits 2 (r / 60000 mod 60) ++ ":"
    ++ digits 2 (r / 1000 mod 60) ++ "." ++ digits 3 (r mod 1000) ++ "Z".

(** ** The message text *)

Definition Fields : Type := SiweFields.

Definition LF : ascii := "010"%char.

Fixpoint one_line (s : string) : bool :=
  match s with
  | EmptyString => true
  | String c r => negb (Ascii.eqb c LF) && one_line r
  end.

Definition decimal (z : Z) : string :=
  NilZero.string_of_int (Z.to_int z).

Definition header (f : Fields) : string :=
  siwe_domain f ++ " wants you to sign in with your Ethereum account:"
    ++ String LF (siwe_address f)
    ++ String LF (String LF (String LF ("URI: " ++ siwe_uri f)))
    ++ String LF ("Version: " ++ siwe_version f)
    ++ String LF ("Chain ID: " ++ decimal (siwe_chainId f)).

Definition text (f : Fields) : string :=
  (header f ++ String LF ("Nonce: " ++ siwe_nonce f))
    ++ String LF ("Issued At: " ++ siwe_issuedAt f).

(** A nonce or an issue time that spans lines is refused. *)
Definition prepareMessage (f : Fields) : @Thrown Exn + string :=
  if one_line (siwe_nonce f) && one_line (siwe_issuedAt f)
  then inr (text f)
  else inl (Failure "invalid message").



(** ** The collaborators *)

Definition Session : Type := @LoginResponse UserProfile TokenExtra.
Definition Wallet : Type := @JwtBearerAuth_SIWE_Signer SignFn.
Definition Auth : Type :=
  @SIWEJwtBearerAuth Env AuthType SignFn.
Definition Invocation : Type :=
  @Call Env AuthType UserProfile TokenExtra SignFn.

Record World : Type := {
  stored : option Session;
  time : Z;
  queue : list string;
  authorize_up : bool
}.

Definition store (v : Session) (w : World) : World :=
  {| stored := Some v; time := time w; queue := queue w;
     authorize_up := authorize_up w |}.

Definition issue (q : list string) (w : World) : World :=
  {| stored := stored w; time := time w; queue := q;
     authorize_up := authorize_up w |}.

Definition at_time (t : Z) (w : World) : World :=
  {| stored := stored w; time := t; queue := queue w;
     authorize_up := authorize_up w |}.

Definition handler : @Handler Env AuthType UserProfile TokenExtra SignFn
                              Exn World :=
  fun c =>
    match c as c0 return World -> @Settled _ _ _ _ _ Exn c0 * World with
    | getLoginResponse => fun w => (inr (stored w), w)
    | setLoginResponse v => fun w => (inr tt, store v w)
    | Date_now => fun w => (inr (time w), w)
    | getNonce _ _ =>
        fun w =>
          match queue w with
          | [] => (inl (Failure "nonce service unavailable"), w)
          | n :: q => (inr {| nonce := n |}, issue q w)
          end
    | SiweMessage_prepareMessage f => fun w => (prepareMessage f, w)
    | signer_signMessage s m =>
        fun w =>
          match signMessageFn s m with
          | Some sig => (inr sig, w)
          | None => (inl (Failure "user rejected the request"), w)
          end
    | authenticate _ _ _ _ =>
        fun w => (inr {| auth_token := "i1"; auth_profile := "u1" |}, w)
    | authorizeOIDC _ _ =>
        fun w =>
          if authorize_up w
          then (inr {| accessToken := "a1"; obtainedAt := time w;
                       tokenExtra := tt |}, w)
          else (inl (Failure "authorization failed"), w)
    end.

(** ** The class in this world *)

Definition getAuthSession := @getAuthSession Env AuthType UserProfile
                               TokenExtra SignFn Exn SESSION_LIFETIME_MS.
Definition login := @login Env AuthType UserProfile TokenExtra SignFn Exn
                      SIWE_LOGIN_URL toISOString.
Definition getAccessToken := @getAccessToken Env AuthType UserProfile
                               TokenExtra SignFn Exn SESSION_LIFETIME_MS
                               SIWE_LOGIN_URL toISOString.
Definition getUserProfile := @getUserProfile Env AuthType UserProfile
                               TokenExtra SignFn Exn SESSION_LIFETIME_MS
                               SIWE_LOGIN_URL toISOString.

Definition wallet : Wallet :=
  {| address := "0xABC";
     chainId := 1;
     signMessageFn := fun m => Some ("signed:" ++ m);
     domain := "example.com" |}.

Definition declining : Wallet :=
  {| address := "0xDEF";
     chainId := 1;
     signMessageFn := fun _ => None;
     domain := "example.com" |}.

Definition unprepared : Auth :=
  {| config := {| env := prd; type := SiWE |}; signer := None |}.

Definition prepared : Auth :=
  {| config := {| env := prd; type := SiWE |}; signer := Some wallet |}.

Definition t0 : Z := 1700000000000.

(** Nothing stored, two nonces to issue. *)
Definition empty : World :=
  {| stored := None; time := t0; queue := ["n1"; "n2"];
     authorize_up := true |}.

Definition session0 : Session :=
  {| profile := "u0";
     token := {| accessToken := "a0"; obtainedAt := t0;
                 tokenExtra := tt |} |}.

(** [session0] stored, obtained at [t0]. *)
Definition logged_in : World := store session0 empty.

(** ** Worlds for the boundary cases *)

(** The last millisecond at which [session0] is valid, and the first at
    which it is not. *)
Definition last_valid : World :=
  at_time (t0 + SESSION_LIFETIME_MS - 1) logged_in.

Definition first_expired : World :=
  at_time (t0 + SESSION_LIFETIME_MS) logged_in.

(** A clock one second behind the stored session. *)
Definition clock_behind : World := at_time (t0 - 1000) logged_in.

(** The authorization endpoint is down. *)
Definition authorize_down : World :=
  {| stored := Some session0; time := t0 + SESSION_LIFETIME_MS;
     queue := ["n1"]; authorize_up := false |}.


(** The same collaborators, with a storage whose read fails. *)
Definition offline : @Handler Env AuthType UserProfile TokenExtra SignFn
                              Exn World :=
  fun c =>
    match c as c0 return World -> @Settled _ _ _ _ _ Exn c0 * World with
    | getLoginResponse =>
        fun w => (inl (Failure "storage unavailable"), w)
    | other => handler other
    end.

(** A second wallet, on another chain and domain. *)
Definition other_wallet : Wallet :=
  {| address := "0x123";
     chainId := 5;
     signMessageFn := fun m => Some ("other:" ++ m);
     domain := "other.example" |}.

(** ** A renderer that fills in a missing nonce *)






End Sim.


(** * What the class guarantees, against any collaborators *)

Section Facts.

Context {Env AuthType UserProfile TokenExtra SignFn Exn : Type}.
Variable SESSION_LIFETIME_MS : Z.
Variable SIWE_LOGIN_URL : Env -> string.
Variable toISOString : Z -> string.

Local Abbreviation Collaborators :=
  (@Handler Env AuthType UserProfile TokenExtra SignFn Exn).
Local Abbreviation Auth := (@SIWEJwtBearerAuth Env AuthType SignFn).

(** Unfolds a method down to the handler's answers. *)
Ltac unfold_methods :=
  unfold exec, getAccessToken, getUserProfile, getAuthSession, login,
    createSiWELoginRawMessage, signMessage, getIdentifier, prepare,
    bind, call, get_signer, get_config, set_signer;
  simpl.

(** Splits on the next answer of the handler. *)
Ltac answer h :=
  match goal with
  | |- context [h ?c ?w] =>
      let r := fresh "r" in
      let w' := fresh "w" in
      let E := fresh "E" in
      destruct (h c w) as [[r | r] w'] eqn:E; simpl
  end.

(** ** The cache gate *)

(** What [#getAuthSession] computes from the two answers it asks for. *)
Lemma getAuthSession_hit :
  forall (W : Type) (h : Collaborators W) (this : Auth)
         (w w1 w2 : W) (s : LoginResponse) (now : Z),
    h getLoginResponse w = (inr (Some s), w1) ->
    h Date_now w1 = (inr now, w2) ->
    exec h (getAuthSession SESSION_LIFETIME_MS) this w =
    {| result := inr (if now - obtainedAt (token s) <? SESSION_LIFETIME_MS
                      then Some s else None);
       object := this;
       world := w2;
       trace := [ {| entry_call := getLoginResponse;
                     entry_resp := inr (Some s) |};
                  {| entry_call := Date_now; entry_resp := inr now |} ] |}.
Proof.
  intros W h this w w1 w2 s now Hget Hnow.
  unfold_methods. rewrite Hget. simpl. rewrite Hnow. simpl.
  destruct (now - obtainedAt (token s) <? SESSION_LIFETIME_MS); reflexivity.
Qed.

Lemma getAuthSession_absent :
  forall (W : Type) (h : Collaborators W) (this : Auth) (w w1 : W),
    h getLoginResponse w = (inr None, w1) ->
    exec h (getAuthSession SESSION_LIFETIME_MS) this w =
    {| result := inr None;
       object := this;
       world := w1;
       trace := [ {| entry_call := getLoginResponse;
                     entry_resp := inr None |} ] |}.
Proof.
  intros W h this w w1 Hget.
  unfold_methods. rewrite Hget. reflexivity.
Qed.

(** C1.  With a stored session obtained at [T] and the clock at [now], the
    cache gate returns the stored session exactly when
    [now - T < SESSION_LIFETIME_MS], and nothing otherwise; in particular it
    returns the session at [T + SESSION_LIFETIME_MS - 1] and nothing from
    [T + SESSION_LIFETIME_MS] on. *)
Theorem getAuthSession_expiry_boundary :
  forall (W : Type) (h : Collaborators W) (this : Auth)
         (w w1 w2 : W) (s : LoginResponse) (now : Z),
    h getLoginResponse w = (inr (Some s), w1) ->
    h Date_now w1 = (inr now, w2) ->
    let T := obtainedAt (token s) in
    let r := result (exec h (getAuthSession SESSION_LIFETIME_MS) this w) in
    (r = inr (Some s) <-> now - T < SESSION_LIFETIME_MS) /\
    (r = inr None <-> SESSION_LIFETIME_MS <= now - T) /\
    (now = T + SESSION_LIFETIME_MS - 1 -> r = inr (Some s)) /\
    (T + SESSION_LIFETIME_MS <= now -> r = inr None).
Proof.
  intros W h this w w1 w2 s now Hget Hnow T r.
  subst r. rewrite (getAuthSession_hit W h this w w1 w2 s now Hget Hnow).
  simpl. fold T.
  destruct (Z.ltb_spec (now - T) SESSION_LIFETIME_MS) as [Hlt | Hge].
  - repeat split; intros; try reflexivity; try assumption; try lia.
    discriminate.
  - repeat split; intros; try reflexivity; try assumption; try lia.
    discriminate.
Qed.

(** C7.  Whatever the storage and the clock answer, the cache gate invokes
    nothing but the storage read and the clock: it hands nothing to
    [setLoginResponse], starts no login stage, and leaves the signer and the
    configuration as they were.  An absent session and an expired one both
    give "no session", after the reads alone. *)
Theorem getAuthSession_reads_only :
  forall (W : Type) (h : Collaborators W) (this : Auth) (w : W),
    let o := exec h (getAuthSession SESSION_LIFETIME_MS) this w in
    object o = this /\
    written (trace o) = [] /\
    forallb is_read (trace o) = true /\
    (map (fun e => stage (entry_call e)) (trace o) = [Storage_read] \/
     map (fun e => stage (entry_call e)) (trace o) = [Storage_read; Clock]) /\
    (forall w1,
        h getLoginResponse w = (inr None, w1) ->
        result o = inr None /\ world o = w1 /\
        outline (trace o) = [(Storage_read, true)]) /\
    (forall s w1 now w2,
        h getLoginResponse w = (inr (Some s), w1) ->
        h Date_now w1 = (inr now, w2) ->
        SESSION_LIFETIME_MS <= now - obtainedAt (token s) ->
        result o = inr None /\ world o = w2 /\
        outline (trace o) = [(Storage_read, true); (Clock, true)]).
Proof.
  intros W h this w o.
  assert (Hframe :
            object o = this /\ written (trace o) = [] /\
            forallb is_read (trace o) = true /\
            (map (fun e => stage (entry_call e)) (trace o) = [Storage_read] \/
             map (fun e => stage (entry_call e)) (trace o)
             = [Storage_read; Clock])).
  { subst o. unfold_methods.
    destruct (h getLoginResponse w) as [[e | [s |]] w1]; simpl; auto.
    destruct (h Date_now w1) as [[e | now] w2]; simpl; auto.
    destruct (now - obtainedAt (token s) <? SESSION_LIFETIME_MS);
      simpl; auto. }
  destruct Hframe as (Hobj & Hwr & Hrd & Hshape).
  split; [assumption |]. split; [assumption |].
  split; [assumption |]. split; [assumption |].
  split.
  - intros w1 Hget. subst o.
    rewrite (getAuthSession_absent W h this w w1 Hget). repeat split.
  - intros s w1 now w2 Hget Hnow Hexpired. subst o.
    rewrite (getAuthSession_hit W h this w w1 w2 s now Hget Hnow). simpl.
    destruct (Z.ltb_spec (now - obtainedAt (token s)) SESSION_LIFETIME_MS);
      [lia | repeat split].
Qed.

(** C10.  A stored session whose [obtainedAt] lies after the call time has
    a negative age and is returned: the gate bounds the age from above
    only. *)
Theorem future_session_is_valid :
  0 <= SESSION_LIFETIME_MS ->
  forall (W : Type) (h : Collaborators W) (this : Auth)
         (w w1 w2 : W) (s : LoginResponse) (now : Z),
    h getLoginResponse w = (inr (Some s), w1) ->
    h Date_now w1 = (inr now, w2) ->
    now < obtainedAt (token s) ->
    now - obtainedAt (token s) < 0 /\
    result (exec h (getAuthSession SESSION_LIFETIME_MS) this w)
    = inr (Some s).
Proof.
  intros Hlife W h this w w1 w2 s now Hget Hnow Hfuture.
  split; [lia |].
  rewrite (getAuthSession_hit W h this w w1 w2 s now Hget Hnow). simpl.
  destruct (Z.ltb_spec (now - obtainedAt (token s)) SESSION_LIFETIME_MS);
    [reflexivity | lia].
Qed.

(** ** The signer binding *)

(** C3.  With no signer attached, [getIdentifier], [signMessage] and the
    login procedure fail with the assertion's error before invoking any
    collaborator: the log is empty and the world is the one the call
    started in. *)
Theorem signer_required :
  forall (W : Type) (h : Collaborators W) (this : Auth) (w : W),
    signer this = None ->
    exec h getIdentifier this w = refused this w /\
    (forall message, exec h (signMessage message) this w = refused this w) /\
    exec h (login SIWE_LOGIN_URL toISOString) this w = refused this w.
Proof.
  intros W h [cfg sg] w Hnone. simpl in Hnone. subst sg.
  unfold refused. unfold_methods. repeat split.
Qed.

(** C8.  [prepare] stores the signer it is given, whatever was bound
    before and whatever the signer's fields are; it cannot fail, keeps the
    configuration, and invokes no collaborator. *)
Theorem prepare_overwrites :
  forall (W : Type) (h : Collaborators W) (this : Auth) (w : W)
         (s : JwtBearerAuth_SIWE_Signer),
    exec h (prepare s) this w =
    {| result := inr tt;
       object := {| config := config this; signer := Some s |};
       world := w;
       trace := [] |}.
Proof.
  intros W h this w s. reflexivity.
Qed.

(** ** The accessors *)

Lemma getAccessToken_hit :
  forall (W : Type) (h : Collaborators W) (this : Auth)
         (w w1 w2 : W) (s : LoginResponse) (now : Z),
    h getLoginResponse w = (inr (Some s), w1) ->
    h Date_now w1 = (inr now, w2) ->
    now - obtainedAt (token s) < SESSION_LIFETIME_MS ->
    exec h (getAccessToken SESSION_LIFETIME_MS SIWE_LOGIN_URL toISOString)
         this w =
    {| result := inr (accessToken (token s));
       object := this;
       world := w2;
       trace := [ {| entry_call := getLoginResponse;
                     entry_resp := inr (Some s) |};
                  {| entry_call := Date_now; entry_resp := inr now |} ] |}.
Proof.
  intros W h this w w1 w2 s now Hget Hnow Hvalid.
  unfold_methods. rewrite Hget. simpl. rewrite Hnow. simpl.
  destruct (Z.ltb_spec (now - obtainedAt (token s)) SESSION_LIFETIME_MS);
    [reflexivity | lia].
Qed.

Lemma getUserProfile_hit :
  forall (W : Type) (h : Collaborators W) (this : Auth)
         (w w1 w2 : W) (s : LoginResponse) (now : Z),
    h getLoginResponse w = (inr (Some s), w1) ->
    h Date_now w1 = (inr now, w2) ->
    now - obtainedAt (token s) < SESSION_LIFETIME_MS ->
    exec h (getUserProfile SESSION_LIFETIME_MS SIWE_LOGIN_URL toISOString)
         this w =
    {| result := inr (profile s);
       object := this;
       world := w2;
       trace := [ {| entry_call := getLoginResponse;
                     entry_resp := inr (Some s) |};
                  {| entry_call := Date_now; entry_resp := inr now |} ] |}.
Proof.
  intros W h this w w1 w2 s now Hget Hnow Hvalid.
  unfold_methods. rewrite Hget. simpl. rewrite Hnow. simpl.
  destruct (Z.ltb_spec (now - obtainedAt (token s)) SESSION_LIFETIME_MS);
    [reflexivity | lia].
Qed.

(** C4.  When storage holds a session that is valid at call time,
    [getAccessToken] returns its access token and [getUserProfile] its
    profile; the storage read and the clock are all that is invoked, so no
    nonce, authenticate or authorize request is made and nothing is
    written. *)
Theorem accessors_cache_short_circuit :
  forall (W : Type) (h : Collaborators W) (this : Auth)
         (w w1 w2 : W) (s : LoginResponse) (now : Z),
    h getLoginResponse w = (inr (Some s), w1) ->
    h Date_now w1 = (inr now, w2) ->
    now - obtainedAt (token s) < SESSION_LIFETIME_MS ->
    let a := exec h (getAccessToken SESSION_LIFETIME_MS SIWE_LOGIN_URL
                                    toISOString) this w in
    let p := exec h (getUserProfile SESSION_LIFETIME_MS SIWE_LOGIN_URL
                                    toISOString) this w in
    (result a = inr (accessToken (token s)) /\
     outline (trace a) = [(Storage_read, true); (Clock, true)] /\
     written (trace a) = [] /\ object a = this /\ world a = w2) /\
    (result p = inr (profile s) /\
     outline (trace p) = [(Storage_read, true); (Clock, true)] /\
     written (trace p) = [] /\ object p = this /\ world p = w2).
Proof.
  intros W h this w w1 w2 s now Hget Hnow Hvalid a p. subst a p.
  rewrite (getAccessToken_hit W h this w w1 w2 s now Hget Hnow Hvalid).
  rewrite (getUserProfile_hit W h this w w1 w2 s now Hget Hnow Hvalid).
  repeat split.
Qed.

(** C9.  With no signer attached, both accessors still read the cache
    first: a valid stored session is returned without any error; the
    assertion's error only arises on a miss, after the storage read (and the
    clock read, when there was something to date). *)
Theorem cache_consulted_before_signer :
  forall (W : Type) (h : Collaborators W) (this : Auth) (w : W),
    signer this = None ->
    let a := exec h (getAccessToken SESSION_LIFETIME_MS SIWE_LOGIN_URL
                                    toISOString) this w in
    let p := exec h (getUserProfile SESSION_LIFETIME_MS SIWE_LOGIN_URL
                                    toISOString) this w in
    (forall s w1 now w2,
        h getLoginResponse w = (inr (Some s), w1) ->
        h Date_now w1 = (inr now, w2) ->
        now - obtainedAt (token s) < SESSION_LIFETIME_MS ->
        result a = inr (accessToken (token s)) /\
        result p = inr (profile s) /\
        outline (trace a) = [(Storage_read, true); (Clock, true)] /\
        outline (trace p) = [(Storage_read, true); (Clock, true)]) /\
    (forall w1,
        h getLoginResponse w = (inr None, w1) ->
        result a = inl (ValidationError not_prepared) /\
        result p = inl (ValidationError not_prepared) /\
        outline (trace a) = [(Storage_read, true)] /\
        outline (trace p) = [(Storage_read, true)]) /\
    (forall s w1 now w2,
        h getLoginResponse w = (inr (Some s), w1) ->
        h Date_now w1 = (inr now, w2) ->
        SESSION_LIFETIME_MS <= now - obtainedAt (token s) ->
        result a = inl (ValidationError not_prepared) /\
        result p = inl (ValidationError not_prepared) /\
        outline (trace a) = [(Storage_read, true); (Clock, true)] /\
        outline (trace p) = [(Storage_read, true); (Clock, true)]).
Proof.
  intros W h this w Hnone a p. subst a p. split; [| split].
  - intros s w1 now w2 Hget Hnow Hvalid.
    rewrite (getAccessToken_hit W h this w w1 w2 s now Hget Hnow Hvalid).
    rewrite (getUserProfile_hit W h this w w1 w2 s now Hget Hnow Hvalid).
    repeat split.
  - intros w1 Hget. destruct this as [cfg sg]. simpl in Hnone. subst sg.
    unfold_methods. rewrite Hget. simpl. repeat split.
  - intros s w1 now w2 Hget Hnow Hexpired.
    destruct this as [cfg sg]. simpl in Hnone. subst sg.
    unfold_methods. rewrite Hget. simpl. rewrite Hnow. simpl.
    destruct (Z.ltb_spec (now - obtainedAt (token s)) SESSION_LIFETIME_MS);
      [lia |].
    simpl. repeat split.
Qed.

(** ** The login procedure *)

(** C2.  In a login attempt, an invocation that throws ends the attempt
    with what it threw, and unless that invocation was the write itself
    nothing has been handed to [setLoginResponse].  A write happens only as
    the seventh invocation, after the nonce request, the message
    construction, the signature, [authenticate] and [authorizeOIDC] all
    returned.  A login that succeeds wrote exactly once, the value it
    returns: the profile [authenticate] gave with the token [authorizeOIDC]
    gave. *)
Theorem login_persists_after_all_stages :
  forall (W : Type) (h : Collaborators W) (this : Auth) (w : W),
    let o := exec h (login SIWE_LOGIN_URL toISOString) this w in
    let tr := trace o in
    (forall st e,
        In (st, e) (thrown tr) ->
        result o = inl e /\ thrown tr = [(st, e)] /\
        (st <> Storage_write -> written tr = [])) /\
    (forall e,
        result o = inl e ->
        written tr = [] \/ thrown tr = [(Storage_write, e)]) /\
    (written tr <> [] ->
     exists b, outline tr = all_stages_then_write b) /\
    (forall res,
        result o = inr res ->
        written tr = [res] /\
        thrown tr = [] /\
        outline tr = all_stages_then_write true /\
        exists a t,
          authenticated tr = [a] /\ authorized tr = [t] /\
          res = {| profile := auth_profile a; token := t |}) /\
    (List.length (written tr) <= 1)%nat.
Proof.
  intros W h [cfg [sg |]] w o tr; subst tr o; unfold_methods;
    repeat answer h.
  all: split; [intros st e Hin | split; [intros e Hres | split;
         [intros Hw | split; [intros res Hres |]]]].
  all: try (simpl; lia).
  all: try discriminate Hres.
  all: try (exfalso; apply Hw; reflexivity).
  all: try (eexists; reflexivity).
  all: try (inversion Hres; subst; auto; fail).
  all: try (destruct Hin as [Heq | []]; inversion Heq; subst;
            repeat split; auto;
            intros Hne; exfalso; apply Hne; reflexivity).
  all: try (destruct Hin; fail).
  inversion Hres; subst. repeat split.
  eexists; eexists; repeat split.
Qed.

(** The facts about one login attempt that the two claims about the
    message rest on. *)
Lemma login_message_once :
  forall (W : Type) (h : Collaborators W) (this : Auth) (w : W),
    let tr := trace (exec h (login SIWE_LOGIN_URL toISOString) this w) in
    (nonces tr = [] /\ constructed tr = [] /\ rendered tr = [] /\
     signed tr = []) \/
    (exists sg n,
        signer this = Some sg /\ nonces tr = [n] /\
        ((clock_reads tr = [] /\ constructed tr = [] /\ rendered tr = [] /\
          signed tr = []) \/
         (exists t,
             clock_reads tr = [t] /\
             constructed tr
             = [login_message SIWE_LOGIN_URL toISOString sg (config this)
                              n t] /\
             signed tr = rendered tr /\
             (rendered tr = [] \/ exists m, rendered tr = [m])))).
Proof.
  intros W h [cfg [sg |]] w tr; subst tr; unfold_methods;
    repeat answer h.
  all: first
         [ left; repeat split; reflexivity
         | right; eexists; eexists;
           split; [reflexivity |]; split; [reflexivity |];
           first
             [ left; repeat split; reflexivity
             | right; eexists;
               split; [reflexivity |]; split; [reflexivity |];
               split; [reflexivity |]; eauto ] ].
Qed.


(** What a login attempt does once the nonce service and the clock have
    answered: the three first invocations, and the one literal handed to
    [new SiweMessage]. *)
Lemma login_reaches_message :
  forall (W : Type) (h : Collaborators W) (this : Auth) (w w1 w2 : W)
         (sg : JwtBearerAuth_SIWE_Signer) (nres : NonceResponse) (t : Z),
    signer this = Some sg ->
    h (getNonce (address sg) (env (config this))) w = (inr nres, w1) ->
    h Date_now w1 = (inr t, w2) ->
    let tr := trace (exec h (login SIWE_LOGIN_URL toISOString) this w) in
    let literal :=
      login_message SIWE_LOGIN_URL toISOString sg (config this)
                    (nonce nres) t in
    constructed tr = [literal] /\
    nonces tr = [nonce nres] /\
    clock_reads tr = [t] /\
    rendered tr
    = match fst (h (SiweMessage_prepareMessage literal) w2) with
      | inr m => [m]
      | inl _ => []
      end /\
    firstn 3 tr
    = [ {| entry_call := getNonce (address sg) (env (config this));
           entry_resp := inr nres |};
        {| entry_call := Date_now; entry_resp := inr t |};
        {| entry_call := SiweMessage_prepareMessage literal;
           entry_resp := fst (h (SiweMessage_prepareMessage literal) w2) |} ].
Proof.
  intros W h [cfg sgn] w w1 w2 sg nres t Hsg Hask Hnow tr literal.
  simpl in Hsg. subst sgn. simpl in Hask. subst tr literal.
  unfold login_message. unfold_methods.
  rewrite Hask. simpl. rewrite Hnow. simpl.
  repeat answer h; repeat split.
Qed.

(** C5.  A login attempt with signer [sg] attached first requests a nonce
    for the signer's address and the configured environment.  If that
    request throws, no message is constructed.  Once it returns [nres] and
    the clock then reads [t], the attempt constructs exactly one message: it
    hands [new SiweMessage] the literal made of the signer's domain, the
    signer's address, [SIWE_LOGIN_URL] of the configured environment, version
    ["1"], the signer's chain id, the nonce of [nres], and [t] as an ISO
    string, as its third invocation.  The text signed, and the text submitted
    to [authenticate], is the text that one construction returned. *)
Theorem login_message_fields :
  forall (W : Type) (h : Collaborators W) (this : Auth) (w : W)
         (sg : JwtBearerAuth_SIWE_Signer),
    signer this = Some sg ->
    let tr := trace (exec h (login SIWE_LOGIN_URL toISOString) this w) in
    let ask := getNonce (address sg) (env (config this)) in
    requested tr = [(address sg, env (config this))] /\
    (forall e w1,
        h ask w = (inl e, w1) ->
        constructed tr = [] /\ clock_reads tr = [] /\ signed tr = []) /\
    (forall nres w1 t w2,
        h ask w = (inr nres, w1) ->
        h Date_now w1 = (inr t, w2) ->
        let literal :=
          {| siwe_domain := domain sg;
             siwe_address := address sg;
             siwe_uri := SIWE_LOGIN_URL (env (config this));
             siwe_version := "1";
             siwe_chainId := chainId sg;
             siwe_nonce := nonce nres;
             siwe_issuedAt := toISOString t |} in
        constructed tr = [literal] /\
        nonces tr = [nonce nres] /\
        clock_reads tr = [t] /\
        rendered tr
        = match fst (h (SiweMessage_prepareMessage literal) w2) with
          | inr m => [m]
          | inl _ => []
          end /\
        firstn 3 tr
        = [ {| entry_call := ask; entry_resp := inr nres |};
            {| entry_call := Date_now; entry_resp := inr t |};
            {| entry_call := SiweMessage_prepareMessage literal;
               entry_resp :=
                 fst (h (SiweMessage_prepareMessage literal) w2) |} ]) /\
    (List.length (constructed tr) <= 1)%nat /\
    (forall n t,
        nonces tr = [n] ->
        clock_reads tr = [t] ->
        constructed tr =
        [ {| siwe_domain := domain sg;
             siwe_address := address sg;
             siwe_uri := SIWE_LOGIN_URL (env (config this));
             siwe_version := "1";
             siwe_chainId := chainId sg;
             siwe_nonce := n;
             siwe_issuedAt := toISOString t |} ]) /\
    (nonces tr = [] -> constructed tr = []) /\
    signed tr = rendered tr /\
    (submitted tr = [] \/ submitted tr = rendered tr).
Proof.
  intros W h this w sg Hsg tr ask.
  assert (Hcalls : requested tr = [(address sg, env (config this))] /\
                   (submitted tr = [] \/ submitted tr = rendered tr)).
  { subst tr. destruct this as [cfg sgn]. simpl in Hsg. subst sgn.
    unfold_methods. repeat answer h; split; auto. }
  destruct Hcalls as [Hreq Hsub].
  assert (Hfail : forall e w1,
             h ask w = (inl e, w1) ->
             constructed tr = [] /\ clock_reads tr = [] /\ signed tr = []).
  { intros e w1 Hask. subst tr ask.
    destruct this as [cfg sgn]. simpl in Hsg. subst sgn. simpl in Hask.
    unfold_methods. rewrite Hask. simpl. repeat split. }
  assert (Hmade : forall nres w1 t w2,
             h ask w = (inr nres, w1) ->
             h Date_now w1 = (inr t, w2) ->
             let literal :=
               login_message SIWE_LOGIN_URL toISOString sg (config this)
                             (nonce nres) t in
             constructed tr = [literal] /\
             nonces tr = [nonce nres] /\
             clock_reads tr = [t] /\
             rendered tr
             = match fst (h (SiweMessage_prepareMessage literal) w2) with
               | inr m => [m]
               | inl _ => []
               end /\
             firstn 3 tr
             = [ {| entry_call := ask; entry_resp := inr nres |};
                 {| entry_call := Date_now; entry_resp := inr t |};
                 {| entry_call := SiweMessage_prepareMessage literal;
                    entry_resp :=
                      fst (h (SiweMessage_prepareMessage literal) w2) |} ]).
  { intros nres w1 t w2 Hask Hnow.
    exact (login_reaches_message W h this w w1 w2 sg nres t Hsg Hask Hnow). }
  pose proof (login_message_once W h this w) as Hl.
  cbv zeta in Hl. fold tr in Hl.
  split; [exact Hreq |]. split; [exact Hfail |]. split; [exact Hmade |].
  destruct Hl as [(Hn & Hc & Hr & Hs) | (sg' & n & Hsg' & Hn & Hrest)].
  - rewrite Hc, Hs. rewrite Hr in *. rewrite Hn.
    repeat split; auto; intros; discriminate.
  - rewrite Hsg in Hsg'. inversion Hsg'; subst sg'. clear Hsg'.
    destruct Hrest as [(Hk & Hc & Hr & Hs) | (t & Hk & Hc & Hs & Hr)].
    + rewrite Hc, Hs. rewrite Hr in *. rewrite Hn, Hk.
      repeat split; auto; intros; discriminate.
    + rewrite Hc, Hs, Hn, Hk. repeat split; auto.
      * intros n0 t0 Hn0 Ht0. inversion Hn0; inversion Ht0; subst.
        reflexivity.
      * intros; discriminate.
Qed.



(** ** Beyond the claims: lifecycle, failures, composition *)

(** Splits on the next answer of the handler and on the next test of the
    session's age. *)
Ltac decide_next h :=
  first
    [ answer h
    | match goal with
      | |- context [if ?b then _ else _] => destruct b eqn:?; simpl
      | |- context [match ?x with Some _ => _ | None => _ end] =>
          destruct x eqn:?; simpl
      end ].

(** X1.  A freshly constructed object refuses [getIdentifier].  After
    [prepare s1] and then [prepare s2], from any object, [getIdentifier]
    returns the address of [s2], and [signMessage] makes one invocation, of
    [s2]'s own signing function on the text given, and ends as that
    invocation ended, returned or thrown. *)
Theorem last_prepared_signer_is_used :
  forall (W : Type) (h : Collaborators W) (this : Auth) (w : W)
         (cfg : AuthConfig) (s1 s2 : JwtBearerAuth_SIWE_Signer)
         (message : string),
    exec h getIdentifier (constructor cfg) w = refused (constructor cfg) w /\
    exec h (bind (prepare s1)
                 (fun _ => bind (prepare s2) (fun _ => getIdentifier)))
         this w =
    {| result := inr (address s2);
       object := {| config := config this; signer := Some s2 |};
       world := w;
       trace := [] |} /\
    exec h (bind (prepare s1)
                 (fun _ => bind (prepare s2) (fun _ => signMessage message)))
         this w =
    {| result := fst (h (signer_signMessage s2 message) w);
       object := {| config := config this; signer := Some s2 |};
       world := snd (h (signer_signMessage s2 message) w);
       trace := [ {| entry_call := signer_signMessage s2 message;
                     entry_resp := fst (h (signer_signMessage s2 message) w)
                  |} ] |}.
Proof.
  intros W h this w cfg s1 s2 message. split; [reflexivity |].
  split; [reflexivity |].
  unfold_methods.
  destruct (h (signer_signMessage s2 message) w) as [r w']. reflexivity.
Qed.

(** X2.  When the storage read throws, the cache gate and both accessors
    end with what it threw, having invoked nothing else: no login is
    attempted, whether or not a signer is attached. *)
Theorem storage_read_failure_propagates :
  forall (W : Type) (h : Collaborators W) (this : Auth) (w w1 : W)
         (e : Thrown),
    h getLoginResponse w = (inl e, w1) ->
    let failed (A : Type) : Outcome W A :=
      {| result := inl e;
         object := this;
         world := w1;
         trace := [ {| entry_call := getLoginResponse;
                       entry_resp := inl e |} ] |} in
    exec h (getAuthSession SESSION_LIFETIME_MS) this w = failed _ /\
    exec h (getAccessToken SESSION_LIFETIME_MS SIWE_LOGIN_URL toISOString)
         this w = failed _ /\
    exec h (getUserProfile SESSION_LIFETIME_MS SIWE_LOGIN_URL toISOString)
         this w = failed _.
Proof.
  intros W h this w w1 e Hget failed. subst failed.
  unfold_methods. rewrite Hget. simpl. repeat split.
Qed.

(** X3.  On a miss an accessor is the login procedure: when storage holds
    nothing, or holds a session that has expired, [getAccessToken] and
    [getUserProfile] end as [#login] run from the world the reads left ends,
    with the login's error as it is or the field of the login's result; their
    log is the reads followed by the login's log. *)
Theorem accessors_miss_is_login :
  forall (W : Type) (h : Collaborators W) (this : Auth) (w : W),
    let a := exec h (getAccessToken SESSION_LIFETIME_MS SIWE_LOGIN_URL
                                    toISOString) this w in
    let p := exec h (getUserProfile SESSION_LIFETIME_MS SIWE_LOGIN_URL
                                    toISOString) this w in
    (forall w1,
        h getLoginResponse w = (inr None, w1) ->
        let l := exec h (login SIWE_LOGIN_URL toISOString) this w1 in
        let reads := [ {| entry_call := getLoginResponse;
                          entry_resp := inr None |} ] in
        result a = field_of (fun r => accessToken (token r)) (result l) /\
        result p = field_of (fun r => profile r) (result l) /\
        trace a = (reads ++ trace l)%list /\
        trace p = (reads ++ trace l)%list /\
        world a = world l /\ world p = world l) /\
    (forall s w1 now w2,
        h getLoginResponse w = (inr (Some s), w1) ->
        h Date_now w1 = (inr now, w2) ->
        SESSION_LIFETIME_MS <= now - obtainedAt (token s) ->
        let l := exec h (login SIWE_LOGIN_URL toISOString) this w2 in
        let reads := [ {| entry_call := getLoginResponse;
                          entry_resp := inr (Some s) |};
                       {| entry_call := Date_now; entry_resp := inr now |} ] in
        result a = field_of (fun r => accessToken (token r)) (result l) /\
        result p = field_of (fun r => profile r) (result l) /\
        trace a = (reads ++ trace l)%list /\
        trace p = (reads ++ trace l)%list /\
        world a = world l /\ world p = world l).
Proof.
  intros W h [cfg sg] w a p. subst a p. split.
  - intros w1 Hget l reads. subst l reads.
    unfold_methods. rewrite Hget. simpl.
    destruct sg as [sg |]; simpl; [| repeat split].
    repeat answer h; repeat split.
  - intros s w1 now w2 Hget Hnow Hexpired l reads. subst l reads.
    unfold_methods. rewrite Hget. simpl. rewrite Hnow. simpl.
    destruct (Z.ltb_spec (now - obtainedAt (token s)) SESSION_LIFETIME_MS);
      [lia |].
    simpl. destruct sg as [sg |]; simpl; [| repeat split].
    repeat answer h; repeat split.
Qed.

(** X4.  No method but [prepare] changes the object: whatever the
    collaborators answer, [getIdentifier], [signMessage], [#login] and both
    accessors end with the signer and the configuration they started with. *)
Theorem only_prepare_changes_the_object :
  forall (W : Type) (h : Collaborators W) (this : Auth) (w : W),
    object (exec h getIdentifier this w) = this /\
    (forall message, object (exec h (signMessage message) this w) = this) /\
    object (exec h (login SIWE_LOGIN_URL toISOString) this w) = this /\
    object (exec h (getAccessToken SESSION_LIFETIME_MS SIWE_LOGIN_URL
                                   toISOString) this w) = this /\
    object (exec h (getUserProfile SESSION_LIFETIME_MS SIWE_LOGIN_URL
                                   toISOString) this w) = this.
Proof.
  intros W h [cfg [sg |]] w; unfold_methods.
  all: repeat split; intros; repeat decide_next h; reflexivity.
Qed.

(** X5.  A login attempt succeeds exactly when its seven invocations all
    returned: the nonce request, the clock, the message construction, the
    signature, [authenticate], [authorizeOIDC] and the write.  It fails
    exactly when the signer is missing or one invocation threw. *)
Theorem login_succeeds_iff_all_stages_return :
  forall (W : Type) (h : Collaborators W) (this : Auth) (w : W),
    let o := exec h (login SIWE_LOGIN_URL toISOString) this w in
    ((exists res, result o = inr res) <->
     outline (trace o) = all_stages_then_write true) /\
    ((exists e, result o = inl e) <->
     signer this = None \/ thrown (trace o) <> []).
Proof.
  intros W h [cfg [sg |]] w o; subst o; unfold_methods; repeat answer h.
  all: split; split.
  all: try (intros [x Hx]; discriminate Hx).
  all: try (intros Hx; discriminate Hx).
  all: try (intros _; eexists; reflexivity).
  all: try (intros _; right; discriminate).
  all: try (intros _; left; reflexivity).
  all: try reflexivity.
  intros [Hx | Hx]; [discriminate Hx | exfalso; apply Hx; reflexivity].
Qed.

(** X6.  The collaborators a login attempt invokes are always an initial
    part of one fixed order, each at most once, and every invocation but
    the last one made has returned.  In particular a login never reads the
    storage: what it writes does not depend on what was stored. *)
Theorem login_stage_order :
  forall (W : Type) (h : Collaborators W) (this : Auth) (w : W),
    let tr := trace (exec h (login SIWE_LOGIN_URL toISOString) this w) in
    (exists k, map fst (outline tr) = firstn k login_stages) /\
    forallb snd (removelast (outline tr)) = true /\
    loaded tr = [] /\
    ~ In Storage_read (map fst (outline tr)).
Proof.
  intros W h [cfg [sg |]] w tr; subst tr; unfold_methods; repeat answer h.
  all: split;
    [ first [ exists 0%nat; reflexivity | exists 1%nat; reflexivity
            | exists 2%nat; reflexivity | exists 3%nat; reflexivity
            | exists 4%nat; reflexivity | exists 5%nat; reflexivity
            | exists 6%nat; reflexivity | exists 7%nat; reflexivity ]
    | split; [reflexivity | split; [reflexivity |]] ].
  all: simpl; intros Hin;
    repeat (destruct Hin as [Hin | Hin]; [discriminate Hin |]);
    exact Hin.
Qed.

(** X7.  How the answers of one stage feed the next in a login attempt with
    signer [sg]: only [sg] is asked to sign, and the text it is given is the
    text the construction returned; [authenticate] receives that text, the
    signature [sg] returned, and the configured type and environment;
    [authorizeOIDC] receives the token [authenticate] returned and the
    configured environment; what is written is the profile [authenticate]
    returned with the token [authorizeOIDC] returned. *)
Theorem login_data_flow :
  forall (W : Type) (h : Collaborators W) (this : Auth) (w : W)
         (sg : JwtBearerAuth_SIWE_Signer),
    signer this = Some sg ->
    let tr := trace (exec h (login SIWE_LOGIN_URL toISOString) this w) in
    signings tr = map (fun m => (sg, m)) (rendered tr) /\
    (forall m sig,
        rendered tr = [m] -> signatures tr = [sig] ->
        authentications tr
        = [(m, sig, type (config this), env (config this))]) /\
    (signatures tr = [] -> authentications tr = []) /\
    (forall a,
        authenticated tr = [a] ->
        authorizations tr = [(auth_token a, env (config this))]) /\
    (authenticated tr = [] -> authorizations tr = []) /\
    (forall a t,
        authenticated tr = [a] -> authorized tr = [t] ->
        written tr = [ {| profile := auth_profile a; token := t |} ]) /\
    (authorized tr = [] -> written tr = []).
Proof.
  intros W h [cfg sgn] w sg Hsg tr. simpl in Hsg. subst sgn tr.
  unfold_methods. repeat answer h.
  all: split; [reflexivity |].
  all: repeat split; intros; try discriminate; try reflexivity.
  all: repeat match goal with
              | H : [_] = [_] |- _ => inversion H; subst; clear H
              end; reflexivity.
Qed.

(** X8.  Closing the loop: with a storage that reads its writes, after a
    login that succeeded with [res], and as long as the clock shows less
    than [SESSION_LIFETIME_MS] past [res]'s [obtainedAt], both accessors
    return the fields of [res] from the cache, invoking only the storage read
    and the clock: no second login is run. *)
Theorem login_then_accessors_hit :
  forall (W : Type) (h : Collaborators W) (this : Auth) (w w2 : W)
         (res : LoginResponse) (now : Z),
    reads_its_writes h ->
    let o := exec h (login SIWE_LOGIN_URL toISOString) this w in
    result o = inr res ->
    h Date_now (world o) = (inr now, w2) ->
    now - obtainedAt (token res) < SESSION_LIFETIME_MS ->
    let a := exec h (getAccessToken SESSION_LIFETIME_MS SIWE_LOGIN_URL
                                    toISOString) (object o) (world o) in
    let p := exec h (getUserProfile SESSION_LIFETIME_MS SIWE_LOGIN_URL
                                    toISOString) (object o) (world o) in
    result a = inr (accessToken (token res)) /\
    result p = inr (profile res) /\
    outline (trace a) = [(Storage_read, true); (Clock, true)] /\
    outline (trace p) = [(Storage_read, true); (Clock, true)] /\
    loaded (trace a) = [Some res].
Proof.
  intros W h this w w2 res now Hrw o Hres Hnow Hvalid a p.
  assert (Hset : exists w6,
             h (setLoginResponse res) w6 = (inr tt, world o)).
  { subst o. revert Hres. clear Hnow a p.
    destruct this as [cfg [sg |]]; unfold_methods; repeat answer h;
      intros Hres; try discriminate Hres.
    inversion Hres; subst.
    match goal with
    | E : _ (setLoginResponse _) ?u = (inr ?v, _) |- _ =>
        exists u; destruct v; exact E
    end. }
  destruct Hset as [w6 Hset].
  pose proof (Hrw res w6 (world o) Hset) as Hget.
  subst a p.
  rewrite (getAccessToken_hit W h (object o) (world o) (world o) w2 res now
                              Hget Hnow Hvalid).
  rewrite (getUserProfile_hit W h (object o) (world o) (world o) w2 res now
                              Hget Hnow Hvalid).
  repeat split.
Qed.

(** X9.  For one stored session, validity only goes from valid to expired
    as the clock advances: if the gate returns the session at a later
    reading it returns it at any earlier one, and if it reports no session at
    an earlier reading it reports none at any later one. *)
Theorem validity_is_monotone :
  forall (W : Type) (h : Collaborators W) (this this' : Auth)
         (w w1 w2 w' w1' w2' : W) (s : LoginResponse) (now now' : Z),
    h getLoginResponse w = (inr (Some s), w1) ->
    h Date_now w1 = (inr now, w2) ->
    h getLoginResponse w' = (inr (Some s), w1') ->
    h Date_now w1' = (inr now', w2') ->
    now <= now' ->
    let early := result (exec h (getAuthSession SESSION_LIFETIME_MS) this w) in
    let late := result (exec h (getAuthSession SESSION_LIFETIME_MS)
                             this' w') in
    (late = inr (Some s) -> early = inr (Some s)) /\
    (early = inr None -> late = inr None).
Proof.
  intros W h this this' w w1 w2 w' w1' w2' s now now'
         Hget Hnow Hget' Hnow' Hle early late.
  subst early late.
  rewrite (getAuthSession_hit W h this w w1 w2 s now Hget Hnow).
  rewrite (getAuthSession_hit W h this' w' w1' w2' s now' Hget' Hnow').
  simpl.
  destruct (Z.ltb_spec (now - obtainedAt (token s)) SESSION_LIFETIME_MS);
    destruct (Z.ltb_spec (now' - obtainedAt (token s)) SESSION_LIFETIME_MS);
    split; intros Hx; try reflexivity; try discriminate Hx; lia.
Qed.

(** X10.  Where a token returned by [getAccessToken] comes from: either it
    is the token of the stored session, whose age at the clock reading was
    below [SESSION_LIFETIME_MS], and nothing was written; or it is the token
    [authorizeOIDC] returned in a login run by this very call, which was
    written with [authenticate]'s profile, and the stored session, if there
    was one, had reached [SESSION_LIFETIME_MS].  The token of an expired
    stored session is never returned as such. *)
Theorem getAccessToken_token_provenance :
  forall (W : Type) (h : Collaborators W) (this : Auth) (w : W)
         (tok : string),
    let tr := trace (exec h (getAccessToken SESSION_LIFETIME_MS
                                            SIWE_LOGIN_URL toISOString)
                          this w) in
    result (exec h (getAccessToken SESSION_LIFETIME_MS SIWE_LOGIN_URL
                                   toISOString) this w) = inr tok ->
    (exists s now,
        loaded tr = [Some s] /\ clock_reads tr = [now] /\
        now - obtainedAt (token s) < SESSION_LIFETIME_MS /\
        tok = accessToken (token s) /\ written tr = []) \/
    (exists a t,
        authenticated tr = [a] /\ authorized tr = [t] /\
        tok = accessToken t /\
        written tr = [ {| profile := auth_profile a; token := t |} ] /\
        (forall s,
            loaded tr = [Some s] ->
            exists now rest,
              clock_reads tr = now :: rest /\
              SESSION_LIFETIME_MS <= now - obtainedAt (token s))).
Proof.
  intros W h [cfg sg] w tok tr. subst tr. unfold_methods.
  destruct (h getLoginResponse w) as [[e | [s |]] w1]; simpl;
    [discriminate | |].
  - destruct (h Date_now w1) as [[e | now] w2]; simpl; [discriminate |].
    destruct (Z.ltb_spec (now - obtainedAt (token s)) SESSION_LIFETIME_MS)
      as [Hvalid | Hexpired]; simpl.
    + intros Hres. inversion Hres. left. exists s, now. repeat split.
      exact Hvalid.
    + destruct sg as [sg |]; simpl; [| discriminate].
      repeat answer h; intros Hres; try discriminate Hres.
      inversion Hres. right. eexists. eexists.
      split; [reflexivity |]. split; [reflexivity |].
      split; [reflexivity |]. split; [reflexivity |].
      intros s0 Hs0. inversion Hs0; subst s0.
      eexists. eexists. split; [reflexivity | exact Hexpired].
  - destruct sg as [sg |]; simpl; [| discriminate].
    repeat answer h; intros Hres; try discriminate Hres.
    inversion Hres. right. eexists. eexists.
    split; [reflexivity |]. split; [reflexivity |].
    split; [reflexivity |]. split; [reflexivity |].
    intros s0 Hs0. discriminate Hs0.
Qed.

End Facts.

(** * Facts about the world of [Sim] *)

Module SimFacts.
Import Sim.

Example toISOString_epoch : toISOString 0 = "1970-01-01T00:00:00.000Z".
Proof. reflexivity. Qed.

Example toISOString_2023 :
  toISOString 1700000000000 = "2023-11-14T22:13:20.000Z".
Proof. reflexivity. Qed.

Example toISOString_leap_day :
  toISOString 1709210096789 = "2024-02-29T12:34:56.789Z".
Proof. reflexivity. Qed.

(** The round trip of a first [getAccessToken]. *)
Example first_getAccessToken :
  let o := exec handler getAccessToken prepared empty in
  result o = inr "a1" /\
  stored (world o)
  = Some {| profile := "u1";
            token := {| accessToken := "a1"; obtainedAt := t0;
                        tokenExtra := tt |} |} /\
  signed (trace o)
  = [ "example.com wants you to sign in with your Ethereum account:"
        ++ String LF "0xABC"
        ++ String LF (String LF (String LF
             "URI: https://auth.prd.example/api/v2/siwe/login"))
        ++ String LF "Version: 1"
        ++ String LF "Chain ID: 1"
        ++ String LF "Nonce: n1"
        ++ String LF "Issued At: 2023-11-14T22:13:20.000Z" ] /\
  result (exec handler getUserProfile prepared (world o)) = inr "u1" /\
  outline (trace (exec handler getUserProfile prepared (world o)))
  = [(Storage_read, true); (Clock, true)].
Proof. vm_compute. repeat split. Qed.

(** ** The text determines the nonce *)






(** ** The storage cell *)

Lemma handler_keeps_storage :
  forall (c : Invocation) (w : World),
    stored (snd (handler c w)) = stored w \/
    exists v, c = setLoginResponse v.
Proof.
  intros c w. destruct c; simpl; auto.
  - right. eexists. reflexivity.
  - destruct (queue w); auto.
  - destruct (signMessageFn s message); auto.
  - destruct (authorize_up w); auto.
Qed.

(** In this world the cell changes only through [setLoginResponse]: a run
    that hands it nothing leaves the cell as it was. *)
Lemma run_keeps_storage :
  forall (A : Type)
         (p : @Prog Env AuthType UserProfile TokenExtra SignFn Exn A)
         (w : World),
    written (snd (run handler p w)) = [] ->
    stored (snd (fst (run handler p w))) = stored w.
Proof.
  induction p as [a | c k IH]; intros w; [reflexivity |].
  cbn [run].
  pose proof (handler_keeps_storage c w) as Hc.
  destruct (handler c w) as [r w'].
  specialize (IH r w').
  destruct (run handler (k r) w') as [[a w''] tr].
  simpl in *. intros Hw.
  change (written ({| entry_call := c; entry_resp := r |} :: tr))
    with ((match c with
           | setLoginResponse v => [v]
           | _ => []
           end) ++ written tr) in Hw.
  apply app_eq_nil in Hw. destruct Hw as [Hhead Htail].
  destruct Hc as [Hsame | [v Hv]].
  - rewrite <- Hsame. apply IH. exact Htail.
  - subst c. discriminate Hhead.
Qed.

Lemma exec_keeps_storage :
  forall (A : Type)
         (m : @M Env AuthType UserProfile TokenExtra SignFn Exn A)
         (this : Auth) (w : World),
    written (trace (exec handler m this w)) = [] ->
    stored (world (exec handler m this w)) = stored w.
Proof.
  intros A m this w. unfold exec.
  pose proof (run_keeps_storage _ (m this) w) as Hrun.
  destruct (run handler (m this) w) as [[[r this'] w'] tr].
  simpl in *. exact Hrun.
Qed.

Lemma handler_reads_its_writes : reads_its_writes handler.
Proof.
  intros v w w' Hset. simpl in Hset. inversion Hset. reflexivity.
Qed.

End SimFacts.

(** * The claims at work in that world *)

Lemma getAuthSession_expiry_boundary_witness :
  result (exec Sim.handler Sim.getAuthSession Sim.prepared Sim.last_valid)
  = inr (Some Sim.session0) /\
  result (exec Sim.handler Sim.getAuthSession Sim.prepared Sim.first_expired)
  = inr None.
Proof.
  split.
  - assert (Hget : Sim.handler getLoginResponse Sim.last_valid
                   = (inr (Some Sim.session0), Sim.last_valid))
      by reflexivity.
    assert (Hnow : Sim.handler Date_now Sim.last_valid
                   = (inr (Sim.t0 + Sim.SESSION_LIFETIME_MS - 1),
                      Sim.last_valid))
      by reflexivity.
    pose proof (getAuthSession_expiry_boundary
                  Sim.SESSION_LIFETIME_MS Sim.World Sim.handler Sim.prepared
                  Sim.last_valid Sim.last_valid Sim.last_valid Sim.session0
                  (Sim.t0 + Sim.SESSION_LIFETIME_MS - 1) Hget Hnow) as H.
    cbv zeta in H. destruct H as (_ & _ & Hlast & _).
    apply Hlast. reflexivity.
  - assert (Hget : Sim.handler getLoginResponse Sim.first_expired
                   = (inr (Some Sim.session0), Sim.first_expired))
      by reflexivity.
    assert (Hnow : Sim.handler Date_now Sim.first_expired
                   = (inr (Sim.t0 + Sim.SESSION_LIFETIME_MS),
                      Sim.first_expired))
      by reflexivity.
    pose proof (getAuthSession_expiry_boundary
                  Sim.SESSION_LIFETIME_MS Sim.World Sim.handler Sim.prepared
                  Sim.first_expired Sim.first_expired Sim.first_expired
                  Sim.session0 (Sim.t0 + Sim.SESSION_LIFETIME_MS)
                  Hget Hnow) as H.
    cbv zeta in H. destruct H as (_ & _ & _ & Hnext).
    apply Hnext. vm_compute. discriminate.
Defined.

Lemma login_persists_after_all_stages_witness :
  (result (exec Sim.handler Sim.login Sim.prepared Sim.authorize_down)
   = inl (Failure "authorization failed") /\
   written (trace (exec Sim.handler Sim.login Sim.prepared Sim.authorize_down))
   = [] /\
   Sim.stored (world (exec Sim.handler Sim.login Sim.prepared
                           Sim.authorize_down))
   = Some Sim.session0) /\
  written (trace (exec Sim.handler Sim.login Sim.prepared Sim.empty))
  = [ {| profile := "u1";
         token := {| accessToken := "a1"; obtainedAt := Sim.t0;
                     tokenExtra := tt |} |} ].
Proof.
  unfold Sim.login. split.
  - pose proof (login_persists_after_all_stages
                  Sim.SIWE_LOGIN_URL Sim.toISOString Sim.World Sim.handler
                  Sim.prepared Sim.authorize_down) as H.
    cbv zeta in H. destruct H as (Hthrown & _).
    assert (Hin : In (Authorization, Failure "authorization failed")
                     (thrown (trace (exec Sim.handler
                                          (login Sim.SIWE_LOGIN_URL
                                                 Sim.toISOString)
                                          Sim.prepared Sim.authorize_down))))
      by (vm_compute; left; reflexivity).
    destruct (Hthrown _ _ Hin) as (Hres & _ & Hnone).
    assert (Hwritten : written (trace (exec Sim.handler
                                            (login Sim.SIWE_LOGIN_URL
                                                   Sim.toISOString)
                                            Sim.prepared Sim.authorize_down))
                       = [])
      by (apply Hnone; discriminate).
    split; [exact Hres |]. split; [exact Hwritten |].
    exact (SimFacts.exec_keeps_storage _ _ _ _ Hwritten).
  - pose proof (login_persists_after_all_stages
                  Sim.SIWE_LOGIN_URL Sim.toISOString Sim.World Sim.handler
                  Sim.prepared Sim.empty) as H.
    cbv zeta in H. destruct H as (_ & _ & _ & Hok & _).
    assert (Hres : result (exec Sim.handler
                                (login Sim.SIWE_LOGIN_URL Sim.toISOString)
                                Sim.prepared Sim.empty)
                   = inr {| profile := "u1";
                            token := {| accessToken := "a1";
                                        obtainedAt := Sim.t0;
                                        tokenExtra := tt |} |})
      by (vm_compute; reflexivity).
    destruct (Hok _ Hres) as (Hwritten & _). exact Hwritten.
Defined.

Lemma signer_required_witness :
  signer Sim.unprepared = None /\
  exec Sim.handler getIdentifier Sim.unprepared Sim.empty
  = refused Sim.unprepared Sim.empty /\
  exec Sim.handler (signMessage "hello") Sim.unprepared Sim.empty
  = refused Sim.unprepared Sim.empty /\
  exec Sim.handler Sim.login Sim.unprepared Sim.empty
  = refused Sim.unprepared Sim.empty.
Proof.
  assert (Hnone : signer Sim.unprepared = None) by reflexivity.
  destruct (signer_required Sim.SIWE_LOGIN_URL Sim.toISOString Sim.World
                            Sim.handler Sim.unprepared Sim.empty Hnone)
    as (Hid & Hsign & Hlogin).
  split; [exact Hnone |]. split; [exact Hid |].
  split; [exact (Hsign "hello") | exact Hlogin].
Defined.

Lemma accessors_cache_short_circuit_witness :
  Sim.t0 - obtainedAt (token Sim.session0) < Sim.SESSION_LIFETIME_MS /\
  result (exec Sim.handler Sim.getAccessToken Sim.prepared Sim.logged_in)
  = inr "a0" /\
  result (exec Sim.handler Sim.getUserProfile Sim.prepared Sim.logged_in)
  = inr "u0" /\
  outline (trace (exec Sim.handler Sim.getAccessToken Sim.prepared
                       Sim.logged_in))
  = [(Storage_read, true); (Clock, true)] /\
  outline (trace (exec Sim.handler Sim.getUserProfile Sim.prepared
                       Sim.logged_in))
  = [(Storage_read, true); (Clock, true)].
Proof.
  assert (Hget : Sim.handler getLoginResponse Sim.logged_in
                 = (inr (Some Sim.session0), Sim.logged_in))
    by reflexivity.
  assert (Hnow : Sim.handler Date_now Sim.logged_in
                 = (inr Sim.t0, Sim.logged_in))
    by reflexivity.
  assert (Hvalid : Sim.t0 - obtainedAt (token Sim.session0)
                   < Sim.SESSION_LIFETIME_MS)
    by reflexivity.
  pose proof (accessors_cache_short_circuit
                Sim.SESSION_LIFETIME_MS Sim.SIWE_LOGIN_URL Sim.toISOString
                Sim.World Sim.handler Sim.prepared
                Sim.logged_in Sim.logged_in Sim.logged_in Sim.session0 Sim.t0
                Hget Hnow Hvalid) as H.
  cbv zeta in H.
  destruct H as ((Ha & Hta & _) & (Hp & Htp & _)).
  split; [exact Hvalid |]. split; [exact Ha |]. split; [exact Hp |].
  split; [exact Hta | exact Htp].
Defined.

Lemma login_message_fields_witness :
  signer Sim.prepared = Some Sim.wallet /\
  constructed (trace (exec Sim.handler Sim.login Sim.prepared Sim.empty))
  = [ {| siwe_domain := "example.com";
         siwe_address := "0xABC";
         siwe_uri := "https://auth.prd.example/api/v2/siwe/login";
         siwe_version := "1";
         siwe_chainId := 1;
         siwe_nonce := "n1";
         siwe_issuedAt := "2023-11-14T22:13:20.000Z" |} ] /\
  clock_reads (trace (exec Sim.handler Sim.login Sim.prepared Sim.empty))
  = [Sim.t0].
Proof.
  assert (Hsg : signer Sim.prepared = Some Sim.wallet) by reflexivity.
  split; [exact Hsg |]. unfold Sim.login.
  pose proof (login_message_fields
                Sim.SIWE_LOGIN_URL Sim.toISOString Sim.World Sim.handler
                Sim.prepared Sim.empty Sim.wallet Hsg) as H.
  cbv zeta in H. destruct H as (_ & _ & Hmade & _).
  assert (Hask : Sim.handler
                   (getNonce (address Sim.wallet)
                             (env (config Sim.prepared)))
                   Sim.empty
                 = (inr {| nonce := "n1" |}, Sim.issue ["n2"] Sim.empty))
    by reflexivity.
  assert (Hnow : Sim.handler Date_now (Sim.issue ["n2"] Sim.empty)
                 = (inr Sim.t0, Sim.issue ["n2"] Sim.empty))
    by reflexivity.
  destruct (Hmade _ _ _ _ Hask Hnow) as (Hc & _ & Hk & _).
  rewrite Hc, Hk. split; [vm_compute; reflexivity | reflexivity].
Defined.



Lemma getAuthSession_reads_only_witness :
  result (exec Sim.handler Sim.getAuthSession Sim.prepared Sim.first_expired)
  = inr None /\
  world (exec Sim.handler Sim.getAuthSession Sim.prepared Sim.first_expired)
  = Sim.first_expired /\
  object (exec Sim.handler Sim.getAuthSession Sim.prepared Sim.first_expired)
  = Sim.prepared /\
  written (trace (exec Sim.handler Sim.getAuthSession Sim.prepared
                       Sim.first_expired))
  = [].
Proof.
  unfold Sim.getAuthSession.
  pose proof (getAuthSession_reads_only
                Sim.SESSION_LIFETIME_MS Sim.World Sim.handler Sim.prepared
                Sim.first_expired) as H.
  cbv zeta in H. destruct H as (Hobj & Hwr & _ & _ & _ & Hexpired).
  assert (Hget : Sim.handler getLoginResponse Sim.first_expired
                 = (inr (Some Sim.session0), Sim.first_expired))
    by reflexivity.
  assert (Hnow : Sim.handler Date_now Sim.first_expired
                 = (inr (Sim.t0 + Sim.SESSION_LIFETIME_MS),
                    Sim.first_expired))
    by reflexivity.
  assert (Hage : Sim.SESSION_LIFETIME_MS
                 <= Sim.t0 + Sim.SESSION_LIFETIME_MS
                    - obtainedAt (token Sim.session0))
    by (vm_compute; discriminate).
  destruct (Hexpired _ _ _ _ Hget Hnow Hage) as (Hres & Hworld & _).
  split; [exact Hres |]. split; [exact Hworld |].
  split; [exact Hobj | exact Hwr].
Defined.

Lemma cache_consulted_before_signer_witness :
  signer Sim.unprepared = None /\
  result (exec Sim.handler Sim.getAccessToken Sim.unprepared Sim.logged_in)
  = inr "a0" /\
  result (exec Sim.handler Sim.getUserProfile Sim.unprepared Sim.logged_in)
  = inr "u0" /\
  result (exec Sim.handler Sim.getAccessToken Sim.unprepared Sim.empty)
  = inl (ValidationError not_prepared) /\
  outline (trace (exec Sim.handler Sim.getAccessToken Sim.unprepared
                       Sim.empty))
  = [(Storage_read, true)].
Proof.
  unfold Sim.getAccessToken, Sim.getUserProfile.
  assert (Hnone : signer Sim.unprepared = None) by reflexivity.
  destruct (cache_consulted_before_signer
              Sim.SESSION_LIFETIME_MS Sim.SIWE_LOGIN_URL Sim.toISOString
              Sim.World Sim.handler Sim.unprepared Sim.logged_in Hnone)
    as (Hhit & _ & _).
  destruct (cache_consulted_before_signer
              Sim.SESSION_LIFETIME_MS Sim.SIWE_LOGIN_URL Sim.toISOString
              Sim.World Sim.handler Sim.unprepared Sim.empty Hnone)
    as (_ & Hmiss & _).
  assert (Hget : Sim.handler getLoginResponse Sim.logged_in
                 = (inr (Some Sim.session0), Sim.logged_in))
    by reflexivity.
  assert (Hnow : Sim.handler Date_now Sim.logged_in
                 = (inr Sim.t0, Sim.logged_in))
    by reflexivity.
  assert (Hvalid : Sim.t0 - obtainedAt (token Sim.session0)
                   < Sim.SESSION_LIFETIME_MS)
    by reflexivity.
  assert (Hnothing : Sim.handler getLoginResponse Sim.empty
                     = (inr None, Sim.empty))
    by reflexivity.
  destruct (Hhit _ _ _ _ Hget Hnow Hvalid) as (Ha & Hp & _).
  destruct (Hmiss _ Hnothing) as (Hfail & _ & Hread & _).
  split; [exact Hnone |]. split; [exact Ha |]. split; [exact Hp |].
  split; [exact Hfail | exact Hread].
Defined.

Lemma future_session_is_valid_witness :
  0 <= Sim.SESSION_LIFETIME_MS /\
  Sim.t0 - 1000 < obtainedAt (token Sim.session0) /\
  result (exec Sim.handler Sim.getAuthSession Sim.prepared Sim.clock_behind)
  = inr (Some Sim.session0).
Proof.
  unfold Sim.getAuthSession.
  assert (Hlife : 0 <= Sim.SESSION_LIFETIME_MS) by (vm_compute; discriminate).
  assert (Hget : Sim.handler getLoginResponse Sim.clock_behind
                 = (inr (Some Sim.session0), Sim.clock_behind))
    by reflexivity.
  assert (Hnow : Sim.handler Date_now Sim.clock_behind
                 = (inr (Sim.t0 - 1000), Sim.clock_behind))
    by reflexivity.
  assert (Hfuture : Sim.t0 - 1000 < obtainedAt (token Sim.session0))
    by reflexivity.
  destruct (future_session_is_valid
              Sim.SESSION_LIFETIME_MS Hlife Sim.World Sim.handler Sim.prepared
              Sim.clock_behind Sim.clock_behind Sim.clock_behind Sim.session0
              (Sim.t0 - 1000) Hget Hnow Hfuture)
    as (_ & Hres).
  split; [exact Hlife |]. split; [exact Hfuture | exact Hres].
Defined.

(** * The further properties at work in that world *)

Lemma storage_read_failure_propagates_witness :
  Sim.offline getLoginResponse Sim.logged_in
  = (inl (Failure "storage unavailable"), Sim.logged_in) /\
  result (exec Sim.offline Sim.getAccessToken Sim.prepared Sim.logged_in)
  = inl (Failure "storage unavailable") /\
  outline (trace (exec Sim.offline Sim.getAccessToken Sim.prepared
                       Sim.logged_in))
  = [(Storage_read, false)].
Proof.
  unfold Sim.getAccessToken.
  assert (Hget : Sim.offline getLoginResponse Sim.logged_in
                 = (inl (Failure "storage unavailable"), Sim.logged_in))
    by reflexivity.
  pose proof (storage_read_failure_propagates
                Sim.SESSION_LIFETIME_MS Sim.SIWE_LOGIN_URL Sim.toISOString
                Sim.World Sim.offline Sim.prepared Sim.logged_in Sim.logged_in
                (Failure "storage unavailable") Hget) as H.
  cbv zeta in H. destruct H as (_ & Ha & _).
  split; [exact Hget |]. rewrite Ha. split; reflexivity.
Defined.

Lemma accessors_miss_is_login_witness :
  Sim.handler getLoginResponse Sim.empty = (inr None, Sim.empty) /\
  result (exec Sim.handler Sim.getAccessToken Sim.prepared Sim.empty)
  = field_of (fun r => accessToken (token r))
             (result (exec Sim.handler Sim.login Sim.prepared Sim.empty)) /\
  result (exec Sim.handler Sim.getUserProfile Sim.prepared Sim.empty)
  = field_of (fun r => profile r)
             (result (exec Sim.handler Sim.login Sim.prepared Sim.empty)).
Proof.
  unfold Sim.getAccessToken, Sim.getUserProfile, Sim.login.
  assert (Hget : Sim.handler getLoginResponse Sim.empty
                 = (inr None, Sim.empty))
    by reflexivity.
  pose proof (accessors_miss_is_login
                Sim.SESSION_LIFETIME_MS Sim.SIWE_LOGIN_URL Sim.toISOString
                Sim.World Sim.handler Sim.prepared Sim.empty) as H.
  cbv zeta in H. destruct H as (Habsent & _).
  destruct (Habsent Sim.empty Hget) as (Ha & Hp & _).
  split; [exact Hget |]. split; [exact Ha | exact Hp].
Defined.

Lemma login_data_flow_witness :
  signer Sim.prepared = Some Sim.wallet /\
  signings (trace (exec Sim.handler Sim.login Sim.prepared Sim.empty))
  = map (fun m => (Sim.wallet, m))
        (rendered (trace (exec Sim.handler Sim.login Sim.prepared
                               Sim.empty))) /\
  authorizations (trace (exec Sim.handler Sim.login Sim.prepared Sim.empty))
  = [("i1", Sim.prd)].
Proof.
  unfold Sim.login.
  assert (Hsg : signer Sim.prepared = Some Sim.wallet) by reflexivity.
  pose proof (login_data_flow
                Sim.SIWE_LOGIN_URL Sim.toISOString Sim.World Sim.handler
                Sim.prepared Sim.empty Sim.wallet Hsg) as H.
  cbv zeta in H. destruct H as (Hsign & _ & _ & Hauth & _).
  assert (Ha : authenticated (trace (exec Sim.handler
                                          (login Sim.SIWE_LOGIN_URL
                                                 Sim.toISOString)
                                          Sim.prepared Sim.empty))
               = [ {| auth_token := "i1"; auth_profile := "u1" |} ])
    by (vm_compute; reflexivity).
  split; [exact Hsg |]. split; [exact Hsign |]. exact (Hauth _ Ha).
Defined.

Lemma login_then_accessors_hit_witness :
  reads_its_writes Sim.handler /\
  result (exec Sim.handler Sim.getAccessToken Sim.prepared
               (world (exec Sim.handler Sim.login Sim.prepared Sim.empty)))
  = inr "a1" /\
  result (exec Sim.handler Sim.getUserProfile Sim.prepared
               (world (exec Sim.handler Sim.login Sim.prepared Sim.empty)))
  = inr "u1" /\
  outline (trace (exec Sim.handler Sim.getUserProfile Sim.prepared
                       (world (exec Sim.handler Sim.login Sim.prepared
                                    Sim.empty))))
  = [(Storage_read, true); (Clock, true)].
Proof.
  unfold Sim.getAccessToken, Sim.getUserProfile, Sim.login.
  assert (Hres : result (exec Sim.handler
                              (login Sim.SIWE_LOGIN_URL Sim.toISOString)
                              Sim.prepared Sim.empty)
                 = inr {| profile := "u1";
                          token := {| accessToken := "a1";
                                      obtainedAt := Sim.t0;
                                      tokenExtra := tt |} |})
    by (vm_compute; reflexivity).
  assert (Hnow : Sim.handler Date_now
                   (world (exec Sim.handler
                                (login Sim.SIWE_LOGIN_URL Sim.toISOString)
                                Sim.prepared Sim.empty))
                 = (inr Sim.t0,
                    world (exec Sim.handler
                                (login Sim.SIWE_LOGIN_URL Sim.toISOString)
                                Sim.prepared Sim.empty)))
    by (vm_compute; reflexivity).
  assert (Hvalid : Sim.t0 - Sim.t0 < Sim.SESSION_LIFETIME_MS)
    by reflexivity.
  pose proof (login_then_accessors_hit
                Sim.SESSION_LIFETIME_MS Sim.SIWE_LOGIN_URL Sim.toISOString
                Sim.World Sim.handler Sim.prepared Sim.empty _ _ Sim.t0
                SimFacts.handler_reads_its_writes Hres Hnow Hvalid) as H.
  cbv zeta in H. destruct H as (Ha & Hp & _ & Htp & _).
  assert (Hobj : object (exec Sim.handler
                              (login Sim.SIWE_LOGIN_URL Sim.toISOString)
                              Sim.prepared Sim.empty)
                 = Sim.prepared)
    by (vm_compute; reflexivity).
  rewrite Hobj in Ha, Hp, Htp.
  split; [exact SimFacts.handler_reads_its_writes |].
  split; [exact Ha |]. split; [exact Hp | exact Htp].
Defined.

Lemma validity_is_monotone_witness :
  Sim.t0 + 1000 <= Sim.t0 + Sim.SESSION_LIFETIME_MS - 1 /\
  result (exec Sim.handler Sim.getAuthSession Sim.prepared
               (Sim.at_time (Sim.t0 + 1000) Sim.logged_in))
  = inr (Some Sim.session0).
Proof.
  unfold Sim.getAuthSession.
  assert (Hget : Sim.handler getLoginResponse
                   (Sim.at_time (Sim.t0 + 1000) Sim.logged_in)
                 = (inr (Some Sim.session0),
                    Sim.at_time (Sim.t0 + 1000) Sim.logged_in))
    by reflexivity.
  assert (Hnow : Sim.handler Date_now
                   (Sim.at_time (Sim.t0 + 1000) Sim.logged_in)
                 = (inr (Sim.t0 + 1000),
                    Sim.at_time (Sim.t0 + 1000) Sim.logged_in))
    by reflexivity.
  assert (Hget' : Sim.handler getLoginResponse Sim.last_valid
                  = (inr (Some Sim.session0), Sim.last_valid))
    by reflexivity.
  assert (Hnow' : Sim.handler Date_now Sim.last_valid
                  = (inr (Sim.t0 + Sim.SESSION_LIFETIME_MS - 1),
                     Sim.last_valid))
    by reflexivity.
  assert (Hle : Sim.t0 + 1000 <= Sim.t0 + Sim.SESSION_LIFETIME_MS - 1)
    by (vm_compute; discriminate).
  pose proof (validity_is_monotone
                Sim.SESSION_LIFETIME_MS Sim.World Sim.handler
                Sim.prepared Sim.prepared _ _ _ _ _ _ Sim.session0 _ _
                Hget Hnow Hget' Hnow' Hle) as H.
  cbv zeta in H. destruct H as (Hearly & _).
  split; [exact Hle |]. apply Hearly. vm_compute. reflexivity.
Defined.

Lemma getAccessToken_token_provenance_witness :
  result (exec Sim.handler Sim.getAccessToken Sim.prepared Sim.first_expired)
  = inr "a1" /\
  written (trace (exec Sim.handler Sim.getAccessToken Sim.prepared
                       Sim.first_expired))
  <> [].
Proof.
  unfold Sim.getAccessToken.
  assert (Hres : result (exec Sim.handler
                              (getAccessToken Sim.SESSION_LIFETIME_MS
                                              Sim.SIWE_LOGIN_URL
                                              Sim.toISOString)
                              Sim.prepared Sim.first_expired)
                 = inr "a1")
    by (vm_compute; reflexivity).
  split; [exact Hres |].
  destruct (getAccessToken_token_provenance
              Sim.SESSION_LIFETIME_MS Sim.SIWE_LOGIN_URL Sim.toISOString
              Sim.World Sim.handler Sim.prepared Sim.first_expired "a1" Hres)
    as [(s & now & Hload & Hclock & Hvalid & _)
       | (a & t & _ & _ & _ & Hwritten & _)].
  - exfalso. vm_compute in Hload. inversion Hload; subst s.
    vm_compute in Hclock. discriminate Hclock.
  - rewrite Hwritten. discriminate.
Defined.
